(** * backml: the /predict feature pipeline of [app.py]

    A shallow embedding of the Flask service in [src/app.py]: the feature
    encoders, the vector assembler and the [predict] handler, with the
    Python objects, exceptions, [datetime] arithmetic and the document
    store written out as the code uses them.

    Python [str] values are modelled by [string]; case mapping and
    white space are the ASCII part of [str.upper], [str.lower] and
    [str.strip] (characters above 127 are left alone). *)

From Stdlib Require Import ZArith String Ascii SpecFloat Lia.
From stdpp Require Import base option list strings gmap.

Set Warnings "-register-all,-clear-no-such-hyp".
#[local] Open Scope string_scope.
#[local] Open Scope list_scope.
#[local] Open Scope Z_scope.

(** ** Python strings *)

Module Py.

(** [str.isspace] on one ASCII character: TAB..CR, FS..US and SPACE. *)
Definition is_space (c : ascii) : bool :=
  let n := Z.of_N (N_of_ascii c) in
  ((9 <=? n) && (n <=? 13)) || ((28 <=? n) && (n <=? 32)).

Definition is_digit (c : ascii) : bool :=
  let n := Z.of_N (N_of_ascii c) in (48 <=? n) && (n <=? 57).

Definition upper_char (c : ascii) : ascii :=
  let n := N_of_ascii c in
  if ((97 <=? n) && (n <=? 122))%N then ascii_of_N (n - 32) else c.

Definition lower_char (c : ascii) : ascii :=
  let n := N_of_ascii c in
  if ((65 <=? n) && (n <=? 90))%N then ascii_of_N (n + 32) else c.

(** [s.upper()] *)
Fixpoint upper (s : string) : string :=
  match s with
  | EmptyString => EmptyString
  | String c s' => String (upper_char c) (upper s')
  end.

(** [s.lower()] *)
Fixpoint lower (s : string) : string :=
  match s with
  | EmptyString => EmptyString
  | String c s' => String (lower_char c) (lower s')
  end.

Fixpoint lstrip (s : string) : string :=
  match s with
  | EmptyString => EmptyString
  | String c s' => if is_space c then lstrip s' else s
  end.

Fixpoint rstrip (s : string) : string :=
  match s with
  | EmptyString => EmptyString
  | String c s' =>
      match rstrip s' with
      | EmptyString => if is_space c then EmptyString else String c EmptyString
      | r => String c r
      end
  end.

(** [s.strip()] *)
Definition strip (s : string) : string := rstrip (lstrip s).

(** The exception classes the handler can meet.  [HTTPException] is what
    [request.get_json()] raises on a body it cannot parse; [RuntimeError]
    stands for a failure inside the classifier or the store driver. *)
Inductive exn : Set :=
| AttributeError
| TypeError
| ValueError
| OverflowError
| HTTPException
| RuntimeError.

(** A Python expression either returns or raises. *)
Inductive result (A : Type) : Type :=
| Ok (a : A)
| Raise (e : exn).
Arguments Ok {A} a.
Arguments Raise {A} e.

#[export] Instance result_ret : MRet result := @Ok.
#[export] Instance result_bind : MBind result := fun A B f r =>
  match r with
  | Ok a => f a
  | Raise e => Raise e
  end.

Definition returns {A} (r : result A) : Prop := exists a, r = Ok a.
Definition raises {A} (r : result A) : Prop := exists e, r = Raise e.

(** Python [float]: IEEE 754 binary64. *)
Definition float : Set := spec_float.
Definition prec : Z := 53.
Definition emax : Z := 1024.

(** [float(n)] for an [int]: round to nearest even, [OverflowError] when
    the integer is too large. *)
Definition float_of_int (n : Z) : result float :=
  match binary_normalize prec emax n 0 false with
  | S754_infinity _ => Raise OverflowError
  | f => Ok f
  end.

End Py.
Import Py.

(** ** [datetime] *)

Module Dt.

Record datetime : Set := mk_datetime {
  year : Z; month : Z; day : Z;
  hour : Z; minute : Z; second : Z; microsecond : Z
}.

Record timedelta : Set := mk_timedelta { days : Z; seconds : Z; microseconds : Z }.

Definition is_leap (y : Z) : bool :=
  (y mod 4 =? 0) && (negb (y mod 100 =? 0) || (y mod 400 =? 0)).

Definition days_in_month (y m : Z) : Z :=
  if (m =? 2) && is_leap y then 29
  else nth (Z.to_nat m) [0; 31; 28; 31; 30; 31; 30; 31; 31; 30; 31; 30; 31] 0.

Definition days_before_year (y : Z) : Z :=
  let y1 := y - 1 in y1 * 365 + y1 / 4 - y1 / 100 + y1 / 400.

Definition days_before_month (y m : Z) : Z :=
  nth (Z.to_nat m) [0; 0; 31; 59; 90; 120; 151; 181; 212; 243; 273; 304; 334] 0
  + (if (2 <? m) && is_leap y then 1 else 0).

(** [d.toordinal()]: 1 for 0001-01-01. *)
Definition toordinal (d : datetime) : Z :=
  days_before_year (year d) + days_before_month (year d) (month d) + day d.

(** [d.weekday()]: 0 is Monday. *)
Definition weekday (d : datetime) : Z := (toordinal d + 6) mod 7.

(** The constructor's range checks. *)
Definition valid (d : datetime) : bool :=
  (1 <=? year d) && (year d <=? 9999) &&
  (1 <=? month d) && (month d <=? 12) &&
  (1 <=? day d) && (day d <=? days_in_month (year d) (month d)) &&
  (0 <=? hour d) && (hour d <=? 23) &&
  (0 <=? minute d) && (minute d <=? 59) &&
  (0 <=? second d) && (second d <=? 59) &&
  (0 <=? microsecond d) && (microsecond d <=? 999999).

Definition make (y mo d h mi s us : Z) : result datetime :=
  let dt := mk_datetime y mo d h mi s us in
  if valid dt then Ok dt else Raise ValueError.

(** [timedelta(days, seconds, microseconds)] normalises so that
    [0 <= seconds < 86400] and [0 <= microseconds < 1000000]. *)
Definition make_delta (d s us : Z) : timedelta :=
  let s' := s + us / 1000000 in
  mk_timedelta (d + s' / 86400) (s' mod 86400) (us mod 1000000).

Definition day_seconds (d : datetime) : Z :=
  second d + minute d * 60 + hour d * 3600.

(** [a - b] for two naive datetimes. *)
Definition sub (a b : datetime) : timedelta :=
  make_delta (toordinal a - toordinal b)
             (day_seconds a - day_seconds b)
             (microsecond a - microsecond b).

(** Seconds since the start of day 0 of the proleptic calendar. *)
Definition total_seconds (d : datetime) : Z := toordinal d * 86400 + day_seconds d.

(** *** [strptime] with the format ["%Y-%m-%d %H:%M:%S"]

    [_strptime] turns the format into the regular expression
    [(\d\d\d\d)-(1[0-2]|0[1-9]|[1-9])-(3[0-1]|[1-2]\d|0[1-9]|[1-9]| [1-9])\s+(2[0-3]|[0-1]\d|\d):([0-5]\d|\d):(6[0-1]|[0-5]\d|\d)],
    matches it at the start of the text and refuses text left over.  A
    matcher returns its matches in backtracking order, each with the text
    that remains. *)

Definition matcher : Type := string -> list (string * string).

Definition cls (p : ascii -> bool) : matcher := fun s =>
  match s with
  | String c r => if p c then [(String c EmptyString, r)] else []
  | EmptyString => []
  end.

Definition in_range (lo hi : string) (c : ascii) : bool :=
  match lo, hi with
  | String l _, String h _ =>
      (N_of_ascii l <=? N_of_ascii c)%N && (N_of_ascii c <=? N_of_ascii h)%N
  | _, _ => false
  end.

Definition rng (lo hi : string) : matcher := cls (in_range lo hi).
Definition lit (a : string) : matcher := rng a a.
Definition digit : matcher := cls is_digit.

Definition seq (a b : matcher) : matcher := fun s =>
  p ← a s; q ← b p.2; [(p.1 +:+ q.1, q.2)].

Definition alt (a b : matcher) : matcher := fun s => a s ++ b s.

(** [\s+], greedy: the longest run first. *)
Fixpoint spaces (s : string) : list (string * string) :=
  match s with
  | String c r =>
      if is_space c
      then (p ← spaces r; [(String c p.1, p.2)]) ++ [(String c EmptyString, r)]
      else []
  | EmptyString => []
  end.

Definition re_Y : matcher := seq digit (seq digit (seq digit digit)).
Definition re_m : matcher :=
  alt (seq (lit "1") (rng "0" "2")) (alt (seq (lit "0") (rng "1" "9")) (rng "1" "9")).
Definition re_d : matcher :=
  alt (seq (lit "3") (rng "0" "1"))
 (alt (seq (rng "1" "2") digit)
 (alt (seq (lit "0") (rng "1" "9"))
 (alt (rng "1" "9")
      (seq (lit " ") (rng "1" "9"))))).
Definition re_H : matcher :=
  alt (seq (lit "2") (rng "0" "3")) (alt (seq (rng "0" "1") digit) digit).
Definition re_M : matcher := alt (seq (rng "0" "5") digit) digit.
Definition re_S : matcher :=
  alt (seq (lit "6") (rng "0" "1")) (alt (seq (rng "0" "5") digit) digit).

(** [int(text)] on a matched group: digits, after skipped white space. *)
Definition int_of (s : string) : Z :=
  fold_left (fun acc c => if is_digit c then 10 * acc + (Z.of_N (N_of_ascii c) - 48) else acc)
            (list_ascii_of_string s) 0.

(** All matches of the whole expression, first match first: the six
    groups and the text left over. *)
Definition format_matches (s : string) : list (list string * string) :=
  y ← re_Y s; _1 ← lit "-" y.2;
  m ← re_m _1.2; _2 ← lit "-" m.2;
  d ← re_d _2.2; _3 ← spaces d.2;
  h ← re_H _3.2; _4 ← lit ":" h.2;
  mi ← re_M _4.2; _5 ← lit ":" mi.2;
  sc ← re_S _5.2;
  [([y.1; m.1; d.1; h.1; mi.1; sc.1], sc.2)].

(** [datetime.strptime(s, "%Y-%m-%d %H:%M:%S")] on a [str]. *)
Definition strptime (s : string) : result datetime :=
  match format_matches s with
  | ([y; m; d; h; mi; sc], EmptyString) :: _ =>
      make (int_of y) (int_of m) (int_of d) (int_of h) (int_of mi) (int_of sc) 0
  | _ => Raise ValueError
  end.

End Dt.

(** ** Python objects *)

(** What [request.get_json()] can return and what the handler puts in
    its record: JSON values and [datetime] objects. *)
Inductive value : Type :=
| VNone
| VBool (b : bool)
| VInt (n : Z)
| VFloat (f : float)
| VStr (s : string)
| VList (l : list value)
| VDict (d : gmap string value)
| VDatetime (t : Dt.datetime).

(** [bool(v)], as [not data] uses it. *)
Definition truthy (v : value) : bool :=
  match v with
  | VNone => false
  | VBool b => b
  | VInt n => negb (n =? 0)
  | VFloat (S754_zero _) => false
  | VFloat _ => true
  | VStr s => negb (String.eqb s "")
  | VList l => negb (Nat.eqb (length l) 0)
  | VDict d => negb (Nat.eqb (size d) 0)
  | VDatetime _ => true
  end.

(** [int(b)] for a [bool]. *)
Definition int_of_bool (b : bool) : Z := if b then 1 else 0.

(** The methods of [str]; any other object has no such attribute. *)
Definition str_upper (v : value) : result string :=
  match v with VStr s => Ok (upper s) | _ => Raise AttributeError end.

Definition str_lower (v : value) : result string :=
  match v with VStr s => Ok (lower s) | _ => Raise AttributeError end.

Definition str_strip (v : value) : result string :=
  match v with VStr s => Ok (strip s) | _ => Raise AttributeError end.

(** A dict display [{k1: v1, ..., kn: vn}], filled from left to right, a
    later key replacing an earlier one; [py_dict_onto d] continues a
    display that already holds [d]. *)
Definition py_dict_onto {A} (d : gmap string A) (items : list (string * A)) : gmap string A :=
  foldl (fun acc kv => <[kv.1 := kv.2]> acc) d items.

Definition py_dict {A} (items : list (string * A)) : gmap string A :=
  py_dict_onto ∅ items.

(** [**m] inside a display that already holds [d]. *)
Definition splat {A} (d m : gmap string A) : gmap string A := m ∪ d.

(** [d.get(key, dflt)] on a dict with [str] keys: an unhashable key
    raises, any other key that is not a [str] is simply absent. *)
Definition dict_get {A} (d : gmap string A) (key : value) (dflt : A) : result A :=
  match key with
  | VStr s => Ok (default dflt (d !! s))
  | VList _ | VDict _ => Raise TypeError
  | _ => Ok dflt
  end.

(** [data.get(k)] on what [get_json] returned: only a dict has [get]. *)
Definition py_get (data : value) (k : string) : result value :=
  match data with
  | VDict d => Ok (default VNone (d !! k))
  | _ => Raise AttributeError
  end.

(** [datetime.strptime(v, "%Y-%m-%d %H:%M:%S")] *)
Definition py_strptime (v : value) : result Dt.datetime :=
  match v with VStr s => Dt.strptime s | _ => Raise TypeError end.

(** ** The feature encoders *)

Definition encode_admission_type (admission_type : value) : result (gmap string Z) :=
  u1 ← str_upper admission_type;
  u2 ← str_upper admission_type;
  mret (py_dict [
    ("admission_type_EMERGENCY", int_of_bool (String.eqb u1 "EMERGENCY"));
    ("admission_type_URGENT", int_of_bool (String.eqb u2 "URGENT"))
  ]).

Definition mapping : gmap string Z :=
  py_dict [("nan", 0); ("abnormal", 1); ("delta", 2)].

Definition encode_flag (flag_value : value) : result Z :=
  k ← str_lower flag_value;
  dict_get mapping (VStr k) 0.

Definition encode_discharge_location (value0 : value) : result (gmap string Z) :=
  stripped ← str_strip value0;
  let value := upper stripped in
  mret (py_dict [
    ("discharge_location_HOME", int_of_bool (String.eqb value "HOME"));
    ("discharge_location_HOME HEALTH CARE", int_of_bool (String.eqb value "HOME HEALTH CARE"));
    ("discharge_location_SNF", int_of_bool (String.eqb value "SNF"));
    ("discharge_location_SHORT TERM HOSPITAL", int_of_bool (String.eqb value "SHORT TERM HOSPITAL"));
    ("discharge_location_REHAB/DISTINCT PART HOSP",
       int_of_bool (String.eqb value "REHAB/DISTINCT PART HOSP"));
    ("discharge_location_OTHER FACILITY", int_of_bool (String.eqb value "OTHER FACILITY"))
  ]).

Definition insurance_risk : gmap string Z :=
  py_dict [("Medicare", 3); ("Medicaid", 4); ("Private", 1); ("Self Pay", 2); ("Government", 2)].

Definition get_insurance_risk (insurance_type : value) : result Z :=
  dict_get insurance_risk insurance_type 0.

Definition calculate_length_of_stay (admit_time_str discharge_time_str : value) : result Z :=
  admit_time ← py_strptime admit_time_str;
  discharge_time ← py_strptime discharge_time_str;
  mret (Dt.days (Dt.sub discharge_time admit_time)).

Definition get_admit_weekday (admit_time_str : value) : result Z :=
  admit_time ← py_strptime admit_time_str;
  mret (Dt.weekday admit_time).

(** ** The vector assembler *)

Definition feature_order : list string := [
  "ntprobnp"; "ntprobnp_flag"; "creatinine"; "creatinine_flag";
  "urea nitrogen"; "urea nitrogen_flag"; "sodium"; "sodium_flag";
  "potassium"; "potassium_flag"; "albumin"; "albumin_flag";
  "c-reactive protein"; "c-reactive protein_flag"; "hemoglobin"; "hemoglobin_flag";
  "hematocrit"; "hematocrit_flag"; "magnesium"; "magnesium_flag";
  "admission_type_EMERGENCY"; "admission_type_URGENT";
  "discharge_location_HOME"; "discharge_location_HOME HEALTH CARE";
  "discharge_location_SNF"; "discharge_location_SHORT TERM HOSPITAL";
  "discharge_location_REHAB/DISTINCT PART HOSP"; "discharge_location_OTHER FACILITY";
  "insurance_risk"; "length_of_stay"; "admit_weekday"
].

(** [[result.get(f, 0) for f in feature_order]], the row of [X]. *)
Definition feature_vector (result : gmap string value) : list value :=
  (fun f => default (VInt 0) (result !! f)) <$> feature_order.

(** ** The [/predict] handler *)

(** The text of the [error] field of a response. *)
Inductive error_text : Type :=
| Literal (s : string)
| StrOf (e : exn).

(** What [jsonify] is given. *)
Inductive json_body : Type :=
| ErrorBody (error : error_text)
| PredictionBody (prediction : Z) (probability : float) (message : string).

Record response : Type := mk_response { status : Z; body : json_body }.

(** One call of the endpoint as the handler sees it: what
    [request.get_json()] does, what [datetime.now()] returns, and whether
    the store driver fails on this call. *)
Record request : Type := mk_request {
  get_json : result value;
  now : Dt.datetime;
  store_failure : option exn
}.

(** [predictions_collection]: the documents written so far. *)
Abbreviation collection := (list (gmap string value)).

(** Handler code runs on the collection and may raise; what was written
    before an exception stays written. *)
Definition handler (A : Type) : Type := collection -> result A * collection.

#[export] Instance handler_ret : MRet handler := fun A a c => (Ok a, c).
#[export] Instance handler_bind : MBind handler := fun A B f m c =>
  match m c with
  | (Ok a, c') => f a c'
  | (Raise e, c') => (Raise e, c')
  end.

Definition lift {A} (r : result A) : handler A := fun c => (r, c).

(** [predictions_collection.insert_one(doc)] *)
Definition insert_one (failure : option exn) (doc : gmap string value) : handler unit :=
  fun c =>
    match failure with
    | Some e => (Raise e, c)
    | None => (Ok tt, c ++ [doc])
    end.

Section Service.

(** [float(s)] for a [str] [s]: Python's parser of float literals. *)
Variable float_of_str : string -> result float.

(** The classifier loaded from [model.pkl]: [model.predict(X)[0]] and
    [float(model.predict_proba(X)[0][1])] on the row of [X]. *)
Variable model_predict : list value -> result Z.
Variable model_predict_proba : list value -> result float.

(** [float(v)] *)
Definition py_float (v : value) : result float :=
  match v with
  | VFloat f => Ok f
  | VInt n => float_of_int n
  | VBool b => float_of_int (int_of_bool b)
  | VStr s => float_of_str s
  | _ => Raise TypeError
  end.

(** Lines 76 to 149 of [predict]: the lab values, the encoders and the
    [result] dict. *)
Definition build_result (data : value) (timestamp : Dt.datetime)
  : result (gmap string value) :=
  ntprobnp ← py_get data "ntprobnp" ≫= py_float;
  creatinine ← py_get data "creatinine" ≫= py_float;
  urea_nitrogen ← py_get data "urea_nitrogen" ≫= py_float;
  sodium ← py_get data "sodium" ≫= py_float;
  potassium ← py_get data "potassium" ≫= py_float;
  albumin ← py_get data "albumin" ≫= py_float;
  crp ← py_get data "c_reactive_protein" ≫= py_float;
  hemoglobin ← py_get data "hemoglobin" ≫= py_float;
  hematocrit ← py_get data "hematocrit" ≫= py_float;
  magnesium ← py_get data "magnesium" ≫= py_float;
  ntprobnp_flag ← py_get data "ntprobnp_flag" ≫= encode_flag;
  creatinine_flag ← py_get data "creatinine_flag" ≫= encode_flag;
  urea_nitrogen_flag ← py_get data "urea_nitrogen_flag" ≫= encode_flag;
  sodium_flag ← py_get data "sodium_flag" ≫= encode_flag;
  potassium_flag ← py_get data "potassium_flag" ≫= encode_flag;
  albumin_flag ← py_get data "albumin_flag" ≫= encode_flag;
  crp_flag ← py_get data "c_reactive_protein_flag" ≫= encode_flag;
  hemoglobin_flag ← py_get data "hemoglobin_flag" ≫= encode_flag;
  hematocrit_flag ← py_get data "hematocrit_flag" ≫= encode_flag;
  magnesium_flag ← py_get data "magnesium_flag" ≫= encode_flag;
  let flags := py_dict [
    ("ntprobnp_flag", ntprobnp_flag);
    ("creatinine_flag", creatinine_flag);
    ("urea nitrogen_flag", urea_nitrogen_flag);
    ("sodium_flag", sodium_flag);
    ("potassium_flag", potassium_flag);
    ("albumin_flag", albumin_flag);
    ("c-reactive protein_flag", crp_flag);
    ("hemoglobin_flag", hemoglobin_flag);
    ("hematocrit_flag", hematocrit_flag);
    ("magnesium_flag", magnesium_flag)
  ] in
  admission ← py_get data "admission_type" ≫= encode_admission_type;
  discharge ← py_get data "discharge_location" ≫= encode_discharge_location;
  insurance_risk ← py_get data "insurance" ≫= get_insurance_risk;
  admit_time ← py_get data "admit_time";
  discharge_time ← py_get data "discharge_time";
  length_of_stay ← calculate_length_of_stay admit_time discharge_time;
  admit_time' ← py_get data "admit_time";
  admit_weekday ← get_admit_weekday admit_time';
  patient_id ← py_get data "patient_id";
  patient_name ← py_get data "patient_name";
  insurance ← py_get data "insurance";
  admission_type ← py_get data "admission_type";
  discharge_location ← py_get data "discharge_location";
  admit_time'' ← py_get data "admit_time";
  discharge_time' ← py_get data "discharge_time";
  let head := py_dict [
    ("patient_id", patient_id);
    ("patient_name", patient_name);
    ("ntprobnp", VFloat ntprobnp);
    ("creatinine", VFloat creatinine);
    ("urea_nitrogen", VFloat urea_nitrogen);
    ("sodium", VFloat sodium);
    ("potassium", VFloat potassium);
    ("albumin", VFloat albumin);
    ("c_reactive_protein", VFloat crp);
    ("hemoglobin", VFloat hemoglobin);
    ("hematocrit", VFloat hematocrit);
    ("magnesium", VFloat magnesium)
  ] in
  let splatted :=
    splat (splat (splat head (VInt <$> flags)) (VInt <$> admission)) (VInt <$> discharge) in
  mret (py_dict_onto splatted [
    ("insurance", insurance);
    ("insurance_risk", VInt insurance_risk);
    ("length_of_stay", VInt length_of_stay);
    ("admit_weekday", VInt admit_weekday);
    ("admission_type", admission_type);
    ("discharge_location", discharge_location);
    ("admit_time", admit_time'');
    ("discharge_time", discharge_time');
    ("timestamp", VDatetime timestamp)
  ]).

(** [result.update({...})] of lines 157 to 160. *)
Definition add_prediction (result : gmap string value) (prediction : Z) (probability : float)
  : gmap string value :=
  splat result (py_dict [
    ("prediction_result", VStr (if prediction =? 1 then "Yes" else "No"));
    ("readmission_probability", VFloat probability)
  ]).

(** The body of the [try]. *)
Definition predict_try (rq : request) : handler response :=
  data ← lift (get_json rq);
  if negb (truthy data)
  then mret (mk_response 400 (ErrorBody (Literal "No data provided")))
  else
    result ← lift (build_result data (now rq));
    let X := feature_vector result in
    prediction ← lift (model_predict X);
    probability ← lift (model_predict_proba X);
    let result' := add_prediction result prediction probability in
    _ ← insert_one (store_failure rq) result';
    mret (mk_response 200 (PredictionBody prediction probability "Prediction successful")).

(** [predict]: [except Exception as e] answers 500 with [str(e)]. *)
Definition predict (rq : request) (c : collection) : response * collection :=
  match predict_try rq c with
  | (Ok r, c') => (r, c')
  | (Raise e, c') => (mk_response 500 (ErrorBody (StrOf e)), c')
  end.

End Service.

(** * Reference definitions

    What the documentation says, written out, to state the properties. *)

(** Two strings that differ in the case of their letters only. *)
Definition same_letters (s t : string) : Prop := lower s = lower t.

#[export] Instance same_letters_dec s t : Decision (same_letters s t) :=
  decide (lower s = lower t).

(** The value a display gives a key: that of its last item with the key. *)
Fixpoint last_item {A} (k : string) (items : list (string * A)) : option A :=
  match items with
  | [] => None
  | kv :: rest =>
      match last_item k rest with
      | Some w => Some w
      | None => if String.eqb kv.1 k then Some kv.2 else None
      end
  end.

Definition is_str (v : value) : bool :=
  match v with VStr _ => true | _ => false end.

(** The documented code of a case-folded flag. *)
Definition flag_code (k : string) : Z :=
  if String.eqb k "nan" then 0
  else if String.eqb k "abnormal" then 1
  else if String.eqb k "delta" then 2
  else 0.

(** The documented score of an insurance class. *)
Definition risk_score (s : string) : Z :=
  if String.eqb s "Medicare" then 3
  else if String.eqb s "Medicaid" then 4
  else if String.eqb s "Private" then 1
  else if String.eqb s "Self Pay" then 2
  else if String.eqb s "Government" then 2
  else 0.

(** The two admission indicators of an upper-cased text. *)
Definition admission_indicators (u : string) : gmap string Z :=
  py_dict [
    ("admission_type_EMERGENCY", int_of_bool (String.eqb u "EMERGENCY"));
    ("admission_type_URGENT", int_of_bool (String.eqb u "URGENT"))
  ].

(** The six canonical discharge categories. *)
Definition discharge_categories : list string :=
  ["HOME"; "HOME HEALTH CARE"; "SNF"; "SHORT TERM HOSPITAL";
   "REHAB/DISTINCT PART HOSP"; "OTHER FACILITY"].

(** One indicator per category for a trimmed, upper-cased text. *)
Definition discharge_indicators (u : string) : gmap string Z :=
  py_dict ((fun c => ("discharge_location_" +:+ c, int_of_bool (String.eqb u c)))
             <$> discharge_categories).

(** The documented layout of the vector: ten lab value and flag pairs,
    two admission-type indicators, six discharge-location indicators,
    then the insurance risk, the length of stay and the admit weekday. *)
Definition lab_names : list string :=
  ["ntprobnp"; "creatinine"; "urea nitrogen"; "sodium"; "potassium";
   "albumin"; "c-reactive protein"; "hemoglobin"; "hematocrit"; "magnesium"].

Definition documented_order : list string :=
  (lab_names ≫= fun lab => [lab; lab +:+ "_flag"])
  ++ ["admission_type_EMERGENCY"; "admission_type_URGENT"]
  ++ ((fun c => "discharge_location_" +:+ c) <$> discharge_categories)
  ++ ["insurance_risk"; "length_of_stay"; "admit_weekday"].

Definition is_number (v : value) : bool :=
  match v with VInt _ | VFloat _ => true | _ => false end.

(** The request fields that carry the ten lab values, each with the place
    of its feature in [feature_order]. *)
Definition lab_fields : list (string * nat) :=
  [("ntprobnp", 0%nat); ("creatinine", 2%nat); ("urea_nitrogen", 4%nat);
   ("sodium", 6%nat); ("potassium", 8%nat); ("albumin", 10%nat);
   ("c_reactive_protein", 12%nat); ("hemoglobin", 14%nat);
   ("hematocrit", 16%nat); ("magnesium", 18%nat)].

(** The text of a datetime in the layout YYYY-MM-DD HH:MM:SS, every field
    padded with zeros. *)
Definition digit_char (n : Z) : ascii := ascii_of_N (Z.to_N (48 + n mod 10)).

Definition two_digits (n : Z) : string :=
  String (digit_char (n / 10)) (String (digit_char n) EmptyString).

Definition four_digits (n : Z) : string :=
  String (digit_char (n / 1000)) (String (digit_char (n / 100)) (two_digits n)).

Definition timestamp_text (t : Dt.datetime) : string :=
  four_digits (Dt.year t) +:+ "-" +:+ two_digits (Dt.month t) +:+ "-"
  +:+ two_digits (Dt.day t) +:+ " " +:+ two_digits (Dt.hour t) +:+ ":"
  +:+ two_digits (Dt.minute t) +:+ ":" +:+ two_digits (Dt.second t).

(** ** A sample call

    A complete request whose lab values are JSON numbers, a classifier
    that answers label 1 with probability 0.82, and a store that works. *)

(** 18.5, 1.2, 3.9 and 0.82 in binary64. *)
Definition f_18_5 : float := S754_finite false 5207287069147136 (-48).
Definition f_1_2 : float := S754_finite false 5404319552844595 (-52).
Definition f_3_9 : float := S754_finite false 8782019273372467 (-51).
Definition f_0_82 : float := S754_finite false 7385903388887613 (-53).

Definition sample_body : gmap string value := py_dict [
  ("patient_id", VStr "P-001"); ("patient_name", VStr "Ada");
  ("ntprobnp", VInt 900); ("ntprobnp_flag", VStr "abnormal");
  ("creatinine", VFloat f_1_2); ("creatinine_flag", VStr "nan");
  ("urea_nitrogen", VFloat f_18_5); ("urea_nitrogen_flag", VStr "delta");
  ("sodium", VInt 140); ("sodium_flag", VStr "nan");
  ("potassium", VFloat f_3_9); ("potassium_flag", VStr "nan");
  ("albumin", VFloat f_3_9); ("albumin_flag", VStr "nan");
  ("c_reactive_protein", VFloat f_1_2); ("c_reactive_protein_flag", VStr "Abnormal");
  ("hemoglobin", VInt 12); ("hemoglobin_flag", VStr "nan");
  ("hematocrit", VInt 38); ("hematocrit_flag", VStr "nan");
  ("magnesium", VInt 2); ("magnesium_flag", VStr "nan");
  ("admission_type", VStr "emergency");
  ("discharge_location", VStr "Home");
  ("insurance", VStr "Medicare");
  ("admit_time", VStr "2024-01-01 08:00:00");
  ("discharge_time", VStr "2024-01-03 10:00:00")
].

Definition sample_now : Dt.datetime := Dt.mk_datetime 2024 1 3 12 30 0 250000.

Definition sample_request : request :=
  mk_request (Ok (VDict sample_body)) sample_now None.

(** The sample requests hold no lab value as text, so the text parser
    behind [float] is never reached; it is left refusing every text. *)
Definition sample_float_of_str : string -> result float := fun _ => Raise ValueError.
Definition sample_predict : list value -> result Z := fun _ => Ok 1.
Definition sample_predict_proba : list value -> result float := fun _ => Ok f_0_82.

Definition sample_run : request -> collection -> response * collection :=
  predict sample_float_of_str sample_predict sample_predict_proba.

(** * Properties *)

(** ** Case mapping *)

Lemma lower_upper_char c : lower_char (upper_char c) = lower_char c.
Proof. destruct c as [[] [] [] [] [] [] [] []]; reflexivity. Qed.

Lemma upper_lower_char c : upper_char (lower_char c) = upper_char c.
Proof. destruct c as [[] [] [] [] [] [] [] []]; reflexivity. Qed.

Lemma upper_upper_char c : upper_char (upper_char c) = upper_char c.
Proof. destruct c as [[] [] [] [] [] [] [] []]; reflexivity. Qed.

Lemma lower_lower_char c : lower_char (lower_char c) = lower_char c.
Proof. destruct c as [[] [] [] [] [] [] [] []]; reflexivity. Qed.

Lemma lower_upper s : lower (upper s) = lower s.
Proof. induction s as [|c s IH]; simpl; [done|]. by rewrite lower_upper_char, IH. Qed.

Lemma upper_lower s : upper (lower s) = upper s.
Proof. induction s as [|c s IH]; simpl; [done|]. by rewrite upper_lower_char, IH. Qed.

Lemma upper_upper s : upper (upper s) = upper s.
Proof. induction s as [|c s IH]; simpl; [done|]. by rewrite upper_upper_char, IH. Qed.

Lemma lower_lower s : lower (lower s) = lower s.
Proof. induction s as [|c s IH]; simpl; [done|]. by rewrite lower_lower_char, IH. Qed.

Lemma same_letters_upper s t : same_letters s t <-> upper s = upper t.
Proof.
  unfold same_letters. split; intros H.
  - by rewrite <- (upper_lower s), H, upper_lower.
  - by rewrite <- (lower_upper s), H, lower_upper.
Qed.

Lemma eqb_upper_same_letters s t :
  String.eqb (upper s) (upper t) = bool_decide (same_letters s t).
Proof.
  destruct (String.eqb_spec (upper s) (upper t)) as [E|E].
  - symmetry. apply bool_decide_eq_true. by apply same_letters_upper.
  - symmetry. apply bool_decide_eq_false. by rewrite same_letters_upper.
Qed.

(** ** Dict displays *)

Lemma lookup_py_dict_onto {A} (items : list (string * A)) (d : gmap string A) k :
  py_dict_onto d items !! k =
  match last_item k items with Some w => Some w | None => d !! k end.
Proof.
  revert d. induction items as [|[k' v] rest IH]; intros d; [done|].
  unfold py_dict_onto in *. cbn [foldl last_item fst snd]. rewrite IH.
  destruct (last_item k rest); [done|].
  destruct (String.eqb_spec k' k) as [->|Hne].
  - by rewrite lookup_insert_eq.
  - by rewrite lookup_insert_ne.
Qed.

Lemma lookup_py_dict {A} (items : list (string * A)) k :
  py_dict items !! k = last_item k items.
Proof.
  unfold py_dict. rewrite lookup_py_dict_onto, lookup_empty.
  by destruct (last_item k items).
Qed.

Lemma dom_py_dict_onto {A} (items : list (string * A)) (d : gmap string A) :
  dom (py_dict_onto d items) = dom d ∪ list_to_set items.*1.
Proof.
  revert d. induction items as [|[k v] rest IH]; intros d.
  - cbn. set_solver.
  - unfold py_dict_onto in *. cbn [foldl fmap list_fmap fst snd list_to_set].
    rewrite IH, dom_insert_L. set_solver.
Qed.

(** ** The encoders on their inputs *)

Lemma mapping_lookup k : default 0 (mapping !! k) = flag_code k.
Proof.
  unfold mapping, flag_code. rewrite lookup_py_dict. cbn [last_item fst snd].
  rewrite !(String.eqb_sym _ k).
  destruct (String.eqb_spec k "delta") as [->|?]; [done|].
  destruct (String.eqb_spec k "abnormal") as [->|?]; [done|].
  by destruct (String.eqb_spec k "nan") as [->|?].
Qed.

Lemma encode_flag_str s : encode_flag (VStr s) = Ok (flag_code (lower s)).
Proof. unfold encode_flag. cbn. by rewrite mapping_lookup. Qed.

Lemma encode_flag_not_str v : is_str v = false -> encode_flag v = Raise AttributeError.
Proof. by destruct v. Qed.

Lemma insurance_risk_lookup s : default 0 (insurance_risk !! s) = risk_score s.
Proof.
  unfold insurance_risk, risk_score. rewrite lookup_py_dict. cbn [last_item fst snd].
  rewrite !(String.eqb_sym _ s).
  destruct (String.eqb_spec s "Government") as [->|?]; [done|].
  destruct (String.eqb_spec s "Self Pay") as [->|?]; [done|].
  destruct (String.eqb_spec s "Private") as [->|?]; [done|].
  destruct (String.eqb_spec s "Medicaid") as [->|?]; [done|].
  by destruct (String.eqb_spec s "Medicare") as [->|?].
Qed.

Lemma get_insurance_risk_str s : get_insurance_risk (VStr s) = Ok (risk_score s).
Proof. unfold get_insurance_risk. cbn. by rewrite insurance_risk_lookup. Qed.

Lemma encode_admission_type_str s :
  encode_admission_type (VStr s) = Ok (admission_indicators (upper s)).
Proof. reflexivity. Qed.

Lemma encode_admission_type_not_str v :
  is_str v = false -> encode_admission_type v = Raise AttributeError.
Proof. by destruct v. Qed.

Lemma encode_discharge_location_str s :
  encode_discharge_location (VStr s) = Ok (discharge_indicators (upper (strip s))).
Proof. reflexivity. Qed.

Lemma encode_discharge_location_not_str v :
  is_str v = false -> encode_discharge_location v = Raise AttributeError.
Proof. by destruct v. Qed.

Lemma lookup_admission_emergency u :
  admission_indicators u !! "admission_type_EMERGENCY"
  = Some (int_of_bool (String.eqb u "EMERGENCY")).
Proof. unfold admission_indicators. by rewrite lookup_py_dict. Qed.

Lemma lookup_admission_urgent u :
  admission_indicators u !! "admission_type_URGENT"
  = Some (int_of_bool (String.eqb u "URGENT")).
Proof. unfold admission_indicators. by rewrite lookup_py_dict. Qed.

Lemma dom_admission_indicators u :
  dom (admission_indicators u) = {[ "admission_type_EMERGENCY"; "admission_type_URGENT" ]}.
Proof.
  unfold admission_indicators, py_dict. rewrite dom_py_dict_onto.
  cbn [fmap list_fmap fst list_to_set]. set_solver.
Qed.



(** ** The encoders: claims *)

(** C4, as the spec states it, fails: a flag field missing from the
    request reaches [encode_flag] as [None], and [None.lower()] raises
    instead of giving 0; the sample call without its sodium_flag is
    answered with 500. *)
Lemma encode_flag_missing_field_raises :
  py_get (VDict (delete "sodium_flag" sample_body)) "sodium_flag" = Ok VNone /\
  encode_flag VNone = Raise AttributeError /\
  encode_flag VNone <> Ok 0 /\
  sample_run (mk_request (Ok (VDict (delete "sodium_flag" sample_body))) sample_now None) []
  = (mk_response 500 (ErrorBody (StrOf AttributeError)), []).
Proof. repeat split. discriminate. Qed.

(** C4 (amended): on every string [encode_flag] returns, and what it
    returns is decided by the case-folded text alone: 0 for "nan", 1 for
    "abnormal", 2 for "delta", 0 for anything else; so
    [encode_flag("Abnormal") == 1] and [encode_flag("") == 0].  Strings
    that differ in case only get the same code.  An input that is not a
    string, the [None] of a missing flag field among them, raises
    [AttributeError]. *)
Theorem encode_flag_total_on_strings (s t : string) (v : value) :
  encode_flag (VStr s) = Ok (flag_code (lower s)) /\
  (flag_code (lower s) = 0 \/ flag_code (lower s) = 1 \/ flag_code (lower s) = 2) /\
  (same_letters s t -> encode_flag (VStr s) = encode_flag (VStr t)) /\
  (same_letters s "nan" -> encode_flag (VStr s) = Ok 0) /\
  (same_letters s "abnormal" -> encode_flag (VStr s) = Ok 1) /\
  (same_letters s "delta" -> encode_flag (VStr s) = Ok 2) /\
  (~ same_letters s "nan" -> ~ same_letters s "abnormal" -> ~ same_letters s "delta" ->
     encode_flag (VStr s) = Ok 0) /\
  encode_flag (VStr "Abnormal") = Ok 1 /\
  encode_flag (VStr "") = Ok 0 /\
  (is_str v = false -> encode_flag v = Raise AttributeError).
Proof.
  rewrite !encode_flag_str. unfold same_letters.
  split; [done|]. split.
  { unfold flag_code. repeat case_match; auto. }
  split; [by intros ->|].
  split; [by intros ->|]. split; [by intros ->|]. split; [by intros ->|].
  split.
  { cbn. intros H1 H2 H3. unfold flag_code.
    destruct (String.eqb_spec (lower s) "nan"); [done|].
    destruct (String.eqb_spec (lower s) "abnormal"); [done|].
    by destruct (String.eqb_spec (lower s) "delta"). }
  split; [done|]. split; [done|]. apply encode_flag_not_str.
Qed.

Lemma encode_flag_total_on_strings_witness :
  encode_flag (VStr "DELTA") = encode_flag (VStr "Delta") /\
  encode_flag (VStr "NaN") = Ok 0 /\
  encode_flag (VStr "ABNORMAL") = Ok 1 /\
  encode_flag (VStr "dElTa") = Ok 2 /\
  encode_flag (VStr "high") = Ok 0 /\
  encode_flag (VInt 7) = Raise AttributeError.
Proof.
  split; [apply (encode_flag_total_on_strings "DELTA" "Delta" VNone); reflexivity|].
  split; [apply (encode_flag_total_on_strings "NaN" "" VNone); reflexivity|].
  split; [apply (encode_flag_total_on_strings "ABNORMAL" "" VNone); reflexivity|].
  split; [apply (encode_flag_total_on_strings "dElTa" "" VNone); reflexivity|].
  split; [apply (encode_flag_total_on_strings "high" "" VNone); discriminate|].
  apply (encode_flag_total_on_strings "" "" (VInt 7)); reflexivity.
Defined.

(** C5, as the spec states it, fails: three of the four encoders raise on
    the [None] of a missing field, and [get_insurance_risk] raises on a
    JSON array. *)
Lemma encoders_raise_on_missing_input :
  encode_admission_type VNone = Raise AttributeError /\
  encode_flag VNone = Raise AttributeError /\
  encode_discharge_location VNone = Raise AttributeError /\
  get_insurance_risk (VList []) = Raise TypeError /\
  ~ (forall v, returns (encode_admission_type v) /\ returns (encode_flag v) /\
               returns (encode_discharge_location v) /\ returns (get_insurance_risk v)).
Proof.
  repeat split. intros H. destruct (H VNone) as [[m Hm] _]. discriminate.
Qed.

(** C5 (amended): timestamp parsing can raise; on every string the other
    four encoders return, an unmatched string giving the zero or default
    code; on the [None] of a missing field [encode_admission_type],
    [encode_flag] and [encode_discharge_location] raise [AttributeError]
    and [get_insurance_risk] returns 0. *)
Theorem encoders_total_on_strings (s : string) :
  encode_admission_type (VStr s) = Ok (admission_indicators (upper s)) /\
  encode_flag (VStr s) = Ok (flag_code (lower s)) /\
  encode_discharge_location (VStr s) = Ok (discharge_indicators (upper (strip s))) /\
  get_insurance_risk (VStr s) = Ok (risk_score s) /\
  encode_admission_type (VStr "?") = Ok (py_dict [("admission_type_EMERGENCY", 0);
                                                  ("admission_type_URGENT", 0)]) /\
  encode_flag (VStr "?") = Ok 0 /\
  encode_discharge_location (VStr "?") = Ok (discharge_indicators "") /\
  get_insurance_risk (VStr "?") = Ok 0 /\
  encode_admission_type VNone = Raise AttributeError /\
  encode_flag VNone = Raise AttributeError /\
  encode_discharge_location VNone = Raise AttributeError /\
  get_insurance_risk VNone = Ok 0 /\
  raises (calculate_length_of_stay (VStr "2024-13-01 08:00:00") (VStr "2024-01-03 10:00:00")) /\
  raises (get_admit_weekday (VStr "01/01/2024")).
Proof.
  split; [apply encode_admission_type_str|].
  split; [apply encode_flag_str|].
  split; [apply encode_discharge_location_str|].
  split; [apply get_insurance_risk_str|].
  repeat split; by eexists.
Qed.

(** C7: [get_insurance_risk] looks its argument up, as it is, in a table
    of five entries: Medicare 3, Medicaid 4, Private 1, Self Pay 2,
    Government 2; a string that is none of the five keys, a case variant
    included, gives 0. *)
Theorem get_insurance_risk_exact_lookup (s : string) :
  get_insurance_risk (VStr s) = Ok (risk_score s) /\
  size insurance_risk = 5%nat /\
  get_insurance_risk (VStr "Medicare") = Ok 3 /\
  get_insurance_risk (VStr "Medicaid") = Ok 4 /\
  get_insurance_risk (VStr "Private") = Ok 1 /\
  get_insurance_risk (VStr "Self Pay") = Ok 2 /\
  get_insurance_risk (VStr "Government") = Ok 2 /\
  get_insurance_risk (VStr "medicare") = Ok 0 /\
  (s ∉ ["Medicare"; "Medicaid"; "Private"; "Self Pay"; "Government"] ->
     get_insurance_risk (VStr s) = Ok 0).
Proof.
  split; [apply get_insurance_risk_str|].
  do 7 (split; [reflexivity|]).
  intros Hs. rewrite get_insurance_risk_str. unfold risk_score.
  repeat match goal with
  | |- context [String.eqb s ?k] =>
      destruct (String.eqb_spec s k) as [->|?]; [exfalso; apply Hs; set_solver|]
  end.
  reflexivity.
Qed.

Lemma get_insurance_risk_exact_lookup_witness :
  get_insurance_risk (VStr "MEDICARE") = Ok 0.
Proof.
  apply (get_insurance_risk_exact_lookup "MEDICARE").
  intros H. repeat (apply elem_of_cons in H as [H|H]; [discriminate H|]).
  by apply elem_of_nil in H.
Defined.

(** C8: on a string [encode_admission_type] returns a dict of exactly two
    indicators; EMERGENCY is 1 when the text is "EMERGENCY" up to the case
    of its letters and 0 otherwise, URGENT likewise, and both are 0 when
    neither matches: "emergency" gives 1 and 0, "Routine" gives 0 and 0. *)
Theorem encode_admission_type_case_insensitive (s : string) :
  exists m,
    encode_admission_type (VStr s) = Ok m /\
    dom m = {[ "admission_type_EMERGENCY"; "admission_type_URGENT" ]} /\
    m !! "admission_type_EMERGENCY"
      = Some (int_of_bool (bool_decide (same_letters s "EMERGENCY"))) /\
    m !! "admission_type_URGENT"
      = Some (int_of_bool (bool_decide (same_letters s "URGENT"))) /\
    (~ same_letters s "EMERGENCY" -> ~ same_letters s "URGENT" ->
       m = py_dict [("admission_type_EMERGENCY", 0); ("admission_type_URGENT", 0)]) /\
    encode_admission_type (VStr "emergency")
      = Ok (py_dict [("admission_type_EMERGENCY", 1); ("admission_type_URGENT", 0)]) /\
    encode_admission_type (VStr "Routine")
      = Ok (py_dict [("admission_type_EMERGENCY", 0); ("admission_type_URGENT", 0)]).
Proof.
  exists (admission_indicators (upper s)).
  split; [apply encode_admission_type_str|].
  split; [apply dom_admission_indicators|].
  split; [by rewrite lookup_admission_emergency, <- eqb_upper_same_letters|].
  split; [by rewrite lookup_admission_urgent, <- eqb_upper_same_letters|].
  split; [|by split].
  intros HE HU. unfold admission_indicators.
  assert (String.eqb (upper s) "EMERGENCY" = false) as ->
    by (apply String.eqb_neq; intros E; by apply HE, same_letters_upper).
  assert (String.eqb (upper s) "URGENT" = false) as ->
    by (apply String.eqb_neq; intros E; by apply HU, same_letters_upper).
  reflexivity.
Qed.

Lemma encode_admission_type_case_insensitive_witness :
  exists m,
    encode_admission_type (VStr "elective") = Ok m /\
    m = py_dict [("admission_type_EMERGENCY", 0); ("admission_type_URGENT", 0)].
Proof.
  destruct (encode_admission_type_case_insensitive "elective")
    as (m & Hm & _ & _ & _ & Hz & _).
  exists m. split; [exact Hm|]. apply Hz; discriminate.
Defined.




(** ** Timestamps *)

Lemma head_bind {A B} (f : A -> list B) (l : list A) x z :
  head l = Some x -> head (f x) = Some z -> head (l ≫= f) = Some z.
Proof.
  destruct l as [|a l]; [done|]. intros [= ->]. cbn.
  destruct (f x); [done|]. by intros [= ->].
Qed.

(** A property of the integers below a bound holds when it holds for
    each of them. *)
Lemma small_cases (n bound : Z) (P : Z -> Prop) :
  0 <= n < bound ->
  (forall k : nat, (k < Z.to_nat bound)%nat -> P (Z.of_nat k)) -> P n.
Proof. intros Hn H. rewrite <- (Z2Nat.id n) by lia. apply H. lia. Qed.

(** Settle a goal about [n], known to lie in [lo..hi], by running
    through the values. *)
Tactic Notation "by_cases" constr(n) constr(lo) constr(hi) integer(cnt) :=
  let Hb := fresh "Hb" in
  assert (Hb : 0 <= n < hi + 1) by lia;
  match goal with H : lo <= n <= hi |- _ => revert H end;
  pattern n; apply (small_cases n (hi + 1) _ Hb); clear Hb;
  let k := fresh "k" in let Hk := fresh "Hk" in let H := fresh "H" in
  intros k Hk H;
  do cnt (destruct k as [|k]; [first [exfalso; lia | vm_compute; done]|]);
  exfalso; cbn in Hk; lia.

Lemma digit_char_spec n :
  0 <= n ->
  is_digit (digit_char n) = true /\
  Z.of_N (N_of_ascii (digit_char n)) - 48 = n mod 10.
Proof.
  intros Hn. unfold digit_char.
  assert (Hm : 0 <= n mod 10 <= 9) by (pose proof (Z.mod_pos_bound n 10); lia).
  generalize dependent (n mod 10). intros m Hm.
  by_cases m 0 9 10.
Qed.

Lemma digit_head n rest :
  0 <= n ->
  Dt.digit (String (digit_char n) rest) = [(String (digit_char n) EmptyString, rest)].
Proof.
  intros Hn. unfold Dt.digit, Dt.cls. by rewrite (proj1 (digit_char_spec n Hn)).
Qed.

Lemma seq_single (a b : Dt.matcher) s x r y r' :
  a s = [(x, r)] -> b r = [(y, r')] -> Dt.seq a b s = [(x +:+ y, r')].
Proof. unfold Dt.seq. intros ->. cbn. by intros ->. Qed.

Lemma re_Y_head y rest :
  0 <= y -> Dt.re_Y (four_digits y +:+ rest) = [(four_digits y, rest)].
Proof.
  intros Hy. unfold Dt.re_Y.
  change (four_digits y +:+ rest) with
    (String (digit_char (y / 1000)) (String (digit_char (y / 100))
       (String (digit_char (y / 10)) (String (digit_char y) rest)))).
  change (four_digits y) with
    (String (digit_char (y / 1000)) EmptyString
     +:+ String (digit_char (y / 100)) EmptyString
     +:+ String (digit_char (y / 10)) EmptyString
     +:+ String (digit_char y) EmptyString).
  repeat (eapply seq_single; [apply digit_head; try apply Z.div_pos; lia|]).
  apply digit_head; lia.
Qed.

Lemma re_m_head m rest :
  1 <= m <= 12 ->
  head (Dt.re_m (two_digits m +:+ rest)) = Some (two_digits m, rest).
Proof. intros H. by_cases m 1 12 13. Qed.

Lemma re_d_head d rest :
  1 <= d <= 31 ->
  head (Dt.re_d (two_digits d +:+ rest)) = Some (two_digits d, rest).
Proof. intros H. by_cases d 1 31 32. Qed.

Lemma re_H_head h rest :
  0 <= h <= 23 ->
  head (Dt.spaces (" " +:+ two_digits h +:+ rest)) = Some (" ", two_digits h +:+ rest) /\
  head (Dt.re_H (two_digits h +:+ rest)) = Some (two_digits h, rest).
Proof. intros H. by_cases h 0 23 24. Qed.

Lemma re_M_head m rest :
  0 <= m <= 59 ->
  head (Dt.re_M (two_digits m +:+ rest)) = Some (two_digits m, rest).
Proof. intros H. by_cases m 0 59 60. Qed.

Lemma re_S_head s rest :
  0 <= s <= 59 ->
  head (Dt.re_S (two_digits s +:+ rest)) = Some (two_digits s, rest).
Proof. intros H. by_cases s 0 59 60. Qed.

Lemma int_of_two_digits n : 0 <= n <= 59 -> Dt.int_of (two_digits n) = n.
Proof. intros H. by_cases n 0 59 60. Qed.

Lemma int_of_four_digits y : 0 <= y <= 9999 -> Dt.int_of (four_digits y) = y.
Proof.
  unfold Dt.int_of, four_digits, two_digits. cbn [list_ascii_of_string fold_left].
  intros Hy.
  destruct (digit_char_spec (y / 1000)) as [-> E3]; [apply Z.div_pos; lia|].
  destruct (digit_char_spec (y / 100)) as [-> E2]; [apply Z.div_pos; lia|].
  destruct (digit_char_spec (y / 10)) as [-> E1]; [apply Z.div_pos; lia|].
  destruct (digit_char_spec y) as [-> E0]; [lia|].
  rewrite E3, E2, E1, E0.
  replace (y / 100) with (y / 10 / 10) by (by rewrite Z.div_div by lia).
  replace (y / 1000) with (y / 10 / 10 / 10) by (by rewrite !Z.div_div by lia).
  clear E3 E2 E1 E0. Z.div_mod_to_equations. lia.
Qed.

Lemma days_in_month_le y m : Dt.days_in_month y m <= 31.
Proof.
  unfold Dt.days_in_month. case_match; [lia|].
  generalize (Z.to_nat m). intros k.
  do 13 (destruct k as [|k]; [cbn; lia|]). cbn. destruct k; cbn; lia.
Qed.

Lemma valid_bounds t :
  Dt.valid t = true ->
  1 <= Dt.year t <= 9999 /\ 1 <= Dt.month t <= 12 /\ 1 <= Dt.day t <= 31 /\
  0 <= Dt.hour t <= 23 /\ 0 <= Dt.minute t <= 59 /\ 0 <= Dt.second t <= 59.
Proof.
  unfold Dt.valid. rewrite !andb_true_iff, !Z.leb_le.
  pose proof (days_in_month_le (Dt.year t) (Dt.month t)). lia.
Qed.

Lemma strptime_head s y m d h mi sc :
  head (Dt.format_matches s) = Some ([y; m; d; h; mi; sc], EmptyString) ->
  Dt.strptime s
  = Dt.make (Dt.int_of y) (Dt.int_of m) (Dt.int_of d)
            (Dt.int_of h) (Dt.int_of mi) (Dt.int_of sc) 0.
Proof.
  unfold Dt.strptime. destruct (Dt.format_matches s); [done|]. by intros [= ->].
Qed.

(** [strptime] reads back every datetime written as YYYY-MM-DD HH:MM:SS. *)
Lemma strptime_timestamp_text t :
  Dt.valid t = true -> Dt.microsecond t = 0 -> Dt.strptime (timestamp_text t) = Ok t.
Proof.
  intros Hv Hus. destruct (valid_bounds t Hv) as (Hy & Hm & Hd & Hh & Hmi & Hs).
  rewrite (strptime_head _ (four_digits (Dt.year t)) (two_digits (Dt.month t))
             (two_digits (Dt.day t)) (two_digits (Dt.hour t))
             (two_digits (Dt.minute t)) (two_digits (Dt.second t))).
  - rewrite int_of_four_digits by lia. rewrite !int_of_two_digits by lia.
    unfold Dt.make. destruct t; cbn in *. subst. by rewrite Hv.
  - unfold Dt.format_matches, timestamp_text.
    eapply head_bind; [by rewrite re_Y_head by lia|]. cbn [fst snd].
    eapply head_bind; [reflexivity|]. cbn [fst snd].
    eapply head_bind; [by apply re_m_head|]. cbn [fst snd].
    eapply head_bind; [reflexivity|]. cbn [fst snd].
    eapply head_bind; [by apply re_d_head|]. cbn [fst snd].
    eapply head_bind; [by apply re_H_head|]. cbn [fst snd].
    eapply head_bind; [by apply re_H_head|]. cbn [fst snd].
    eapply head_bind; [reflexivity|]. cbn [fst snd].
    eapply head_bind; [by apply re_M_head|]. cbn [fst snd].
    eapply head_bind; [reflexivity|]. cbn [fst snd].
    eapply head_bind; [by apply re_S_head|]. cbn [fst snd].
    reflexivity.
Qed.

(** ** Length of stay *)

Lemma strptime_inv s t :
  Dt.strptime s = Ok t -> Dt.valid t = true /\ Dt.microsecond t = 0.
Proof.
  unfold Dt.strptime, Dt.make. intros H.
  repeat case_match; try discriminate.
  injection H as <-. by split.
Qed.

Lemma days_sub (td ta : Dt.datetime) :
  Dt.microsecond td = 0 -> Dt.microsecond ta = 0 ->
  Dt.days (Dt.sub td ta) = (Dt.total_seconds td - Dt.total_seconds ta) / 86400.
Proof.
  intros Hd Ha. unfold Dt.sub, Dt.make_delta, Dt.total_seconds. cbn [Dt.days].
  rewrite Hd, Ha. change ((0 - 0) / 1000000) with 0. rewrite Z.add_0_r.
  replace (Dt.toordinal td * 86400 + Dt.day_seconds td
           - (Dt.toordinal ta * 86400 + Dt.day_seconds ta))
    with ((Dt.toordinal td - Dt.toordinal ta) * 86400
          + (Dt.day_seconds td - Dt.day_seconds ta)) by lia.
  by rewrite Z.div_add_l.
Qed.

(** C6: [calculate_length_of_stay] parses both texts with the format
    YYYY-MM-DD HH:MM:SS, which reads back every valid datetime written
    that way, and when both parse it returns the number of seconds from
    admission to discharge divided by 86400 and rounded down: the whole
    days of the difference.  It is 0 for a stay under 24 hours and
    negative when the discharge precedes the admission; from
    2024-01-01 08:00:00 to 2024-01-03 10:00:00 it is 2.  A text that does
    not parse raises. *)
Theorem calculate_length_of_stay_whole_days (a d : string) (ta td : Dt.datetime) :
  Dt.strptime a = Ok ta ->
  Dt.strptime d = Ok td ->
  let delta := Dt.total_seconds td - Dt.total_seconds ta in
  exists n,
    calculate_length_of_stay (VStr a) (VStr d) = Ok n /\
    86400 * n <= delta < 86400 * n + 86400 /\
    (0 <= delta < 86400 -> n = 0) /\
    (delta < 0 -> n < 0) /\
    calculate_length_of_stay (VStr "2024-01-01 08:00:00") (VStr "2024-01-03 10:00:00") = Ok 2 /\
    calculate_length_of_stay (VStr "2024-01-01 08:00:00") (VStr "Jan 3 2024") = Raise ValueError /\
    (forall t, Dt.valid t = true -> Dt.microsecond t = 0 ->
       Dt.strptime (timestamp_text t) = Ok t).
Proof.
  intros Ha Hd delta. exists (delta / 86400).
  destruct (strptime_inv _ _ Ha) as [_ Hua], (strptime_inv _ _ Hd) as [_ Hud].
  split.
  { unfold calculate_length_of_stay. cbn [py_strptime]. rewrite Ha, Hd.
    cbn [mbind result_bind mret result_ret]. by rewrite days_sub. }
  pose proof (Z.div_mod delta 86400 ltac:(lia)) as Hdm.
  pose proof (Z.mod_pos_bound delta 86400 ltac:(lia)) as Hb.
  split; [lia|]. split; [lia|]. split; [lia|].
  split; [reflexivity|]. split; [reflexivity|].
  apply strptime_timestamp_text.
Qed.

Lemma calculate_length_of_stay_whole_days_witness :
  calculate_length_of_stay (VStr "2024-03-01 23:00:00") (VStr "2024-03-02 22:59:59") = Ok 0 /\
  (exists n,
     calculate_length_of_stay (VStr "2024-03-01 00:00:00") (VStr "2024-02-29 23:59:59") = Ok n /\
     n < 0) /\
  Dt.strptime (timestamp_text (Dt.mk_datetime 2024 2 29 23 59 59 0))
  = Ok (Dt.mk_datetime 2024 2 29 23 59 59 0).
Proof.
  split; [|split].
  - destruct (calculate_length_of_stay_whole_days
                "2024-03-01 23:00:00" "2024-03-02 22:59:59"
                (Dt.mk_datetime 2024 3 1 23 0 0 0) (Dt.mk_datetime 2024 3 2 22 59 59 0)
                eq_refl eq_refl) as (n & Hn & _ & Hz & _).
    rewrite Hn. f_equal. apply Hz. vm_compute. split; [discriminate|reflexivity].
  - destruct (calculate_length_of_stay_whole_days
                "2024-03-01 00:00:00" "2024-02-29 23:59:59"
                (Dt.mk_datetime 2024 3 1 0 0 0 0) (Dt.mk_datetime 2024 2 29 23 59 59 0)
                eq_refl eq_refl) as (n & Hn & _ & _ & Hneg & _).
    exists n. split; [exact Hn|]. apply Hneg. reflexivity.
  - destruct (calculate_length_of_stay_whole_days
                "2024-03-01 00:00:00" "2024-02-29 23:59:59"
                (Dt.mk_datetime 2024 3 1 0 0 0 0) (Dt.mk_datetime 2024 2 29 23 59 59 0)
                eq_refl eq_refl) as (n & _ & _ & _ & _ & _ & _ & Hfmt).
    apply Hfmt; reflexivity.
Defined.

(** The sample timestamps, read back from their text. *)
Example strptime_leap_day :
  Dt.strptime (timestamp_text (Dt.mk_datetime 2024 2 29 23 59 59 0))
  = Ok (Dt.mk_datetime 2024 2 29 23 59 59 0) /\
  timestamp_text (Dt.mk_datetime 2024 2 29 23 59 59 0) = "2024-02-29 23:59:59" /\
  Dt.strptime "2023-02-29 23:59:59" = Raise ValueError /\
  get_admit_weekday (VStr "2024-01-01 08:00:00") = Ok 0.
Proof. repeat split. Qed.

(** ** The handler *)

Lemma bind_Ok {A B} (f : A -> result B) (r : result A) b :
  r ≫= f = Ok b -> exists a, r = Ok a /\ f a = Ok b.
Proof. destruct r; cbn; [eauto|discriminate]. Qed.

Lemma encode_admission_type_inv v m :
  encode_admission_type v = Ok m ->
  exists s, v = VStr s /\ m = admission_indicators (upper s).
Proof. destruct v; try discriminate. intros [= <-]. eauto. Qed.

Lemma encode_discharge_location_inv v m :
  encode_discharge_location v = Ok m ->
  exists s, v = VStr s /\ m = discharge_indicators (upper (strip s)).
Proof. destruct v; try discriminate. intros [= <-]. eauto. Qed.

Lemma lookup_add_prediction_result r label p :
  add_prediction r label p !! "prediction_result"
  = Some (VStr (if label =? 1 then "Yes" else "No")).
Proof.
  unfold add_prediction, splat. apply lookup_union_Some_l.
  by rewrite lookup_py_dict.
Qed.

Lemma lookup_add_prediction_probability r label p :
  add_prediction r label p !! "readmission_probability" = Some (VFloat p).
Proof.
  unfold add_prediction, splat. apply lookup_union_Some_l.
  by rewrite lookup_py_dict.
Qed.

Section ServiceFacts.

Variable float_of_str : string -> result float.
Variable model_predict : list value -> result Z.
Variable model_predict_proba : list value -> result float.

Abbreviation build := (build_result float_of_str).
Abbreviation to_float := (py_float float_of_str).
Abbreviation run := (predict float_of_str model_predict model_predict_proba).

(** What a successful [build_result] went through, and the row of [X]
    that its dict gives. *)
Lemma build_result_inv data ts r :
  build data ts = Ok r ->
  exists f0 f1 f2 f3 f4 f5 f6 f7 f8 f9 g0 g1 g2 g3 g4 g5 g6 g7 g8 g9 sa sd ir ta td los wd,
    py_get data "ntprobnp" ≫= to_float = Ok f0 /\
    py_get data "creatinine" ≫= to_float = Ok f1 /\
    py_get data "urea_nitrogen" ≫= to_float = Ok f2 /\
    py_get data "sodium" ≫= to_float = Ok f3 /\
    py_get data "potassium" ≫= to_float = Ok f4 /\
    py_get data "albumin" ≫= to_float = Ok f5 /\
    py_get data "c_reactive_protein" ≫= to_float = Ok f6 /\
    py_get data "hemoglobin" ≫= to_float = Ok f7 /\
    py_get data "hematocrit" ≫= to_float = Ok f8 /\
    py_get data "magnesium" ≫= to_float = Ok f9 /\
    py_get data "ntprobnp_flag" ≫= encode_flag = Ok g0 /\
    py_get data "creatinine_flag" ≫= encode_flag = Ok g1 /\
    py_get data "urea_nitrogen_flag" ≫= encode_flag = Ok g2 /\
    py_get data "sodium_flag" ≫= encode_flag = Ok g3 /\
    py_get data "potassium_flag" ≫= encode_flag = Ok g4 /\
    py_get data "albumin_flag" ≫= encode_flag = Ok g5 /\
    py_get data "c_reactive_protein_flag" ≫= encode_flag = Ok g6 /\
    py_get data "hemoglobin_flag" ≫= encode_flag = Ok g7 /\
    py_get data "hematocrit_flag" ≫= encode_flag = Ok g8 /\
    py_get data "magnesium_flag" ≫= encode_flag = Ok g9 /\
    py_get data "admission_type" = Ok (VStr sa) /\
    py_get data "discharge_location" = Ok (VStr sd) /\
    py_get data "insurance" ≫= get_insurance_risk = Ok ir /\
    py_get data "admit_time" = Ok ta /\
    py_get data "discharge_time" = Ok td /\
    calculate_length_of_stay ta td = Ok los /\
    get_admit_weekday ta = Ok wd /\
    feature_vector r =
      [VFloat f0; VInt g0; VFloat f1; VInt g1; VInt 0; VInt g2; VFloat f3; VInt g3;
       VFloat f4; VInt g4; VFloat f5; VInt g5; VInt 0; VInt g6; VFloat f7; VInt g7;
       VFloat f8; VInt g8; VFloat f9; VInt g9]
      ++ (VInt <$> [int_of_bool (String.eqb (upper sa) "EMERGENCY");
                    int_of_bool (String.eqb (upper sa) "URGENT")])
      ++ (VInt <$> ((fun c => int_of_bool (String.eqb (upper (strip sd)) c))
                      <$> discharge_categories))
      ++ [VInt ir; VInt los; VInt wd].
Proof.
  intros H. unfold build_result in H.
  repeat match type of H with
  | _ ≫= _ = Ok _ =>
      let x := fresh "x" in let E := fresh "E" in
      apply bind_Ok in H as (x & E & H)
  end.
  injection H as <-.
  apply bind_Ok in E19 as (va & Eva & (sa & -> & ->)%encode_admission_type_inv).
  apply bind_Ok in E20 as (vd & Evd & (sd & -> & ->)%encode_discharge_location_inv).
  rewrite E22 in E25. injection E25 as <-.
  exists x, x0, x1, x2, x3, x4, x5, x6, x7, x8,
         x9, x10, x11, x12, x13, x14, x15, x16, x17, x18, sa, sd, x21, x22, x23, x24, x26.
  repeat (split; [assumption|]).
  generalize (upper sa) (upper (strip sd)). intros ua ud.
  clear. vm_compute. reflexivity.
Qed.

Lemma build_result_numeric data ts r :
  build data ts = Ok r -> Forall (fun v => is_number v = true) (feature_vector r).
Proof.
  intros H. apply build_result_inv in H.
  destruct H as (f0&f1&f2&f3&f4&f5&f6&f7&f8&f9&g0&g1&g2&g3&g4&g5&g6&g7&g8&g9
                 &sa&sd&ir&ta&td&los&wd&H).
  do 27 (destruct H as [_ H]). rewrite H.
  cbn [fmap list_fmap discharge_categories app]. by repeat constructor.
Qed.

(** Where the lab value of a request field ends up in the row: eight of
    the ten values stand at the place of their feature; the places of
    "urea nitrogen" and "c-reactive protein" hold the default 0, because
    the dict has these two values under "urea_nitrogen" and
    "c_reactive_protein". *)
Lemma lab_value_in_vector data ts r k i f :
  build data ts = Ok r ->
  (k, i) ∈ lab_fields ->
  py_get data k ≫= to_float = Ok f ->
  feature_vector r !! i
  = Some (if bool_decide (k ∈ ["urea_nitrogen"; "c_reactive_protein"])
          then VInt 0 else VFloat f).
Proof.
  intros H Hk Hf. apply build_result_inv in H.
  destruct H as (f0&f1&f2&f3&f4&f5&f6&f7&f8&f9&g0&g1&g2&g3&g4&g5&g6&g7&g8&g9
                 &sa&sd&ir&ta&td&los&wd
                 &E0&E1&E2&E3&E4&E5&E6&E7&E8&E9&H).
  do 17 (destruct H as [_ H]). rewrite H. clear H.
  unfold lab_fields in Hk.
  repeat (apply elem_of_cons in Hk as [[= -> ->]|Hk];
          [match type of Hf with
           | ?t = _ =>
               match goal with
               | E : t = Ok ?g |- _ => assert (g = f) as -> by congruence
               end
           end; reflexivity|]).
  by apply elem_of_nil in Hk.
Qed.

(** The three ways a call can end. *)
Lemma predict_outcome rq c :
  (exists data r label p,
      get_json rq = Ok data /\ truthy data = true /\
      build data (now rq) = Ok r /\
      model_predict (feature_vector r) = Ok label /\
      model_predict_proba (feature_vector r) = Ok p /\
      store_failure rq = None /\
      run rq c = (mk_response 200 (PredictionBody label p "Prediction successful"),
                  c ++ [add_prediction r label p]))
  \/ (exists data,
      get_json rq = Ok data /\ truthy data = false /\
      run rq c = (mk_response 400 (ErrorBody (Literal "No data provided")), c))
  \/ (exists e, run rq c = (mk_response 500 (ErrorBody (StrOf e)), c)).
Proof.
  unfold predict, predict_try, lift, insert_one, mbind, handler_bind, mret, handler_ret.
  destruct (get_json rq) as [data|e]; [|right; right; eexists; reflexivity].
  cbn beta iota.
  destruct (truthy data) eqn:Ht; cbn [negb]; [|right; left; exists data; repeat split; try assumption; reflexivity].
  destruct (build data (now rq)) as [r|e] eqn:Eb; [|right; right; eexists; reflexivity].
  destruct (model_predict (feature_vector r)) as [label|e] eqn:El;
    [|right; right; eexists; reflexivity].
  destruct (model_predict_proba (feature_vector r)) as [p|e] eqn:Ep;
    [|right; right; eexists; reflexivity].
  destruct (store_failure rq) as [e|] eqn:Es; [right; right; eexists; reflexivity|].
  left. exists data, r, label, p. repeat split; try assumption; reflexivity.
Qed.

(** C1: for every mapping the assembler gives a row of exactly 31
    values, one per name of [feature_order] and in that order, which is
    the documented one: ten lab value and flag pairs, two admission-type
    indicators, six discharge-location indicators, insurance_risk,
    length_of_stay, admit_weekday.  The value at a place is what the
    mapping has for the name, and 0 when the name is missing; nothing
    raises.  For the mapping that the handler builds, every value of the
    row is a number. *)
Theorem feature_vector_layout (m : gmap string value) data ts r :
  length (feature_vector m) = 31%nat /\
  feature_order = documented_order /\
  Forall2 (fun f x => x = default (VInt 0) (m !! f)) feature_order (feature_vector m) /\
  (forall i f, feature_order !! i = Some f -> m !! f = None ->
     feature_vector m !! i = Some (VInt 0)) /\
  (build data ts = Ok r -> Forall (fun v => is_number v = true) (feature_vector r)).
Proof.
  split; [reflexivity|]. split; [reflexivity|]. split.
  { unfold feature_vector. apply Forall2_fmap_r, Forall_Forall2_diag.
    by apply Forall_true. }
  split; [|apply build_result_numeric].
  intros i f Hi Hm. unfold feature_vector.
  by rewrite list_lookup_fmap, Hi; cbn; rewrite Hm.
Qed.

(** C3: an empty JSON object is answered with 400 and "No data
    provided", and nothing is written.  Every call either answers 200 and
    appends exactly one document to the collection, or answers 400 or 500
    and leaves the collection as it was. *)
Theorem predict_persists_only_on_success (rq : request) (c : collection) :
  run (mk_request (Ok (VDict ∅)) (now rq) (store_failure rq)) c
    = (mk_response 400 (ErrorBody (Literal "No data provided")), c) /\
  ((status (run rq c).1 = 200 /\ exists doc, (run rq c).2 = c ++ [doc])
   \/ ((status (run rq c).1 = 400 \/ status (run rq c).1 = 500) /\ (run rq c).2 = c)).
Proof.
  split; [reflexivity|].
  destruct (predict_outcome rq c)
    as [(data & r & label & p & _ & _ & _ & _ & _ & _ & ->)
       |[(data & _ & _ & ->)|(e & ->)]]; cbn.
  - left. split; [reflexivity|]. by eexists.
  - right. split; [by left|reflexivity].
  - right. split; [by right|reflexivity].
Qed.

(** C10: when a call answers 200, the one document it stored has the
    label as text in [prediction_result], "Yes" when the classifier's
    label is 1 and "No" otherwise, and the class-1 probability in
    [readmission_probability]; the response carries the same label as an
    integer in [prediction], with the same probability. *)
Theorem stored_label_is_text_response_label_is_int rq c resp c' :
  run rq c = (resp, c') ->
  status resp = 200 ->
  exists data r label p doc,
    get_json rq = Ok data /\
    build data (now rq) = Ok r /\
    model_predict (feature_vector r) = Ok label /\
    model_predict_proba (feature_vector r) = Ok p /\
    c' = c ++ [doc] /\
    doc !! "prediction_result" = Some (VStr (if label =? 1 then "Yes" else "No")) /\
    doc !! "readmission_probability" = Some (VFloat p) /\
    body resp = PredictionBody label p "Prediction successful".
Proof.
  intros Hrun Hst.
  destruct (predict_outcome rq c)
    as [(data & r & label & p & Hj & _ & Hb & Hl & Hp & _ & H)
       |[(data & _ & _ & H)|(e & H)]];
    rewrite Hrun in H; injection H as -> ->; try discriminate Hst.
  exists data, r, label, p, (add_prediction r label p).
  repeat split; try assumption.
  - apply lookup_add_prediction_result.
  - apply lookup_add_prediction_probability.
Qed.

End ServiceFacts.

(** ** The sample call *)

Lemma feature_vector_layout_witness :
  feature_vector {[ "ntprobnp" := VInt 5 ]} !! 1%nat = Some (VInt 0) /\
  exists r,
    build_result sample_float_of_str (VDict sample_body) sample_now = Ok r /\
    Forall (fun v => is_number v = true) (feature_vector r).
Proof.
  split.
  - apply (feature_vector_layout sample_float_of_str {[ "ntprobnp" := VInt 5 ]}
             VNone sample_now ∅) with "ntprobnp_flag"; reflexivity.
  - eexists. split; [reflexivity|].
    apply (feature_vector_layout sample_float_of_str ∅ (VDict sample_body) sample_now).
    reflexivity.
Defined.

Lemma stored_label_is_text_response_label_is_int_witness :
  exists doc,
    (sample_run sample_request []).2 = [doc] /\
    doc !! "prediction_result" = Some (VStr "Yes") /\
    doc !! "readmission_probability" = Some (VFloat f_0_82) /\
    body (sample_run sample_request []).1
      = PredictionBody 1 f_0_82 "Prediction successful".
Proof.
  destruct (stored_label_is_text_response_label_is_int
              sample_float_of_str sample_predict sample_predict_proba
              sample_request []
              (sample_run sample_request []).1 (sample_run sample_request []).2
              eq_refl eq_refl)
    as (data & r & label & p & doc & _ & _ & Hl & Hp & Hc & Hy & Hq & Hb).
  injection Hl as <-. injection Hp as <-.
  exists doc. repeat split; assumption.
Defined.

(** C2 fails on the code.  In the sample call, which is answered with
    200, the request gives urea_nitrogen 18.5 and c_reactive_protein 1.2;
    the dict keeps them under "urea_nitrogen" and "c_reactive_protein",
    the row is read under "urea nitrogen" and "c-reactive protein", and
    so places 4 and 12 of the row handed to the classifier hold 0.  The
    other lab values stand at their places, and so do the flags of the
    two, which the dict keeps under the names of [feature_order]. *)
Theorem sample_row_loses_urea_nitrogen_and_crp :
  status (sample_run sample_request []).1 = 200 /\
  py_get (VDict sample_body) "urea_nitrogen" = Ok (VFloat f_18_5) /\
  py_get (VDict sample_body) "c_reactive_protein" = Ok (VFloat f_1_2) /\
  exists r,
    build_result sample_float_of_str (VDict sample_body) sample_now = Ok r /\
    feature_order !! 4%nat = Some "urea nitrogen" /\
    feature_vector r !! 4%nat = Some (VInt 0) /\
    feature_order !! 12%nat = Some "c-reactive protein" /\
    feature_vector r !! 12%nat = Some (VInt 0) /\
    r !! "urea_nitrogen" = Some (VFloat f_18_5) /\
    r !! "c_reactive_protein" = Some (VFloat f_1_2) /\
    r !! "urea nitrogen" = None /\
    r !! "c-reactive protein" = None /\
    feature_vector r !! 2%nat = Some (VFloat f_1_2) /\
    feature_vector r !! 5%nat = Some (VInt 2) /\
    feature_vector r !! 13%nat = Some (VInt 1).
Proof.
  split; [reflexivity|]. split; [reflexivity|]. split; [reflexivity|].
  eexists. split; [reflexivity|]. repeat split; reflexivity.
Qed.

(** The row of the sample call. *)
Example sample_row :
  exists r,
    build_result sample_float_of_str (VDict sample_body) sample_now = Ok r /\
    feature_vector r =
      [VFloat (S754_finite false 7916483719987200 (-43)); VInt 1;
       VFloat f_1_2; VInt 0; VInt 0; VInt 2;
       VFloat (S754_finite false 4925812092436480 (-45)); VInt 0;
       VFloat f_3_9; VInt 0; VFloat f_3_9; VInt 0; VInt 0; VInt 1;
       VFloat (S754_finite false 6755399441055744 (-49)); VInt 0;
       VFloat (S754_finite false 5348024557502464 (-47)); VInt 0;
       VFloat (S754_finite false 4503599627370496 (-51)); VInt 0;
       VInt 1; VInt 0; VInt 1; VInt 0; VInt 0; VInt 0; VInt 0; VInt 0;
       VInt 3; VInt 2; VInt 0].
Proof. eexists. split; reflexivity. Qed.

(** A failing store: the call is answered with 500 and nothing is kept. *)
Example sample_store_failure c :
  sample_run (mk_request (Ok (VDict sample_body)) sample_now (Some RuntimeError)) c
  = (mk_response 500 (ErrorBody (StrOf RuntimeError)), c).
Proof. reflexivity. Qed.

(** A request without one of its flag fields is answered with 500. *)
Example sample_missing_flag c :
  sample_run (mk_request (Ok (VDict (delete "sodium_flag" sample_body))) sample_now None) c
  = (mk_response 500 (ErrorBody (StrOf AttributeError)), c).
Proof. reflexivity. Qed.

(** A body that is not a JSON object but is not empty either. *)
Example sample_array_body c :
  sample_run (mk_request (Ok (VList [VInt 1])) sample_now None) c
  = (mk_response 500 (ErrorBody (StrOf AttributeError)), c).
Proof. reflexivity. Qed.
